(** * musimath: the [Note] class (src/musimath/note/Note.py)

    A shallow embedding of the [Note] class and of the module of constants it
    imports.  Python floats (and the numpy float64 values the constructor
    produces) are idealised as real numbers: all statements below are about
    the exact arithmetic the code writes down, not about binary64 rounding.
    The exceptions the code raises are kept: the assertion of [plot], the
    refusals of [np.linspace] and of [ax.plot], and, for [half_step], the
    OverflowError of the power and the ZeroDivisionError of the constructor
    at the ends of the range of floats. *)

From Stdlib Require Import String Reals Lra Lia ZArith List Bool.
Import ListNotations.

Local Open Scope R_scope.

(** ** musimath.constants *)

Module constants.

(** The speed of sound in air, m/s. *)
Definition speed_of_sound : Z := 343.

(** The frequency of the A note on the fourth octave, Hz. *)
Definition standard_pitch : Z := 440.

(** The octave of the standard pitch. *)
Definition standard_octave : Z := 4.

(** The number of tonal equal temperaments in an octave. *)
Definition n_tets : Z := 12.

End constants.

Import constants.

(** ** The numeric collaborator (numpy), on idealised reals *)

Module np.

(** [np.sign]: -1, 0 or 1. *)
Definition sign (x : R) : R :=
  if Rlt_dec x 0 then -1 else if Rlt_dec 0 x then 1 else 0.

(** [np.floor] returns a float holding the integer below its argument. *)
Definition floor (x : R) : R := IZR (Zfloor x).

(** [np.abs]. *)
Definition abs (x : R) : R := Rabs x.

(** [np.log2]. *)
Definition log2 (x : R) : R := ln x / ln 2.

(** [np.sin] and [np.pi]. *)
Definition sin (x : R) : R := Rtrigo_def.sin x.
Definition pi : R := PI.

(** [np.linspace(start, stop, num)] with its default [endpoint=True]:
    [num] samples [start + i * step], [step = (stop - start) / (num - 1)];
    a negative [num] is refused with a ValueError, here [None]. *)
Definition linspace (start stop : R) (num : Z) : option (list R) :=
  if (num <? 0)%Z then None
  else
    let step := (stop - start) / IZR (num - 1) in
    Some (map (fun i => start + INR i * step) (seq 0 (Z.to_nat num))).

End np.

(** [x ** y] in exact arithmetic.  In [__init__] the exponent is a numpy
    float and the power raises nothing; the power of [half_step], on Python
    floats, can raise: see [float_pow2]. *)
Definition pow (x y : R) : R := Rpower x y.

(** Python's comparison operators on floats, as booleans. *)
Definition float_lt (x y : R) : bool := if Rlt_dec x y then true else false.
Definition float_le (x y : R) : bool := if Rle_dec x y then true else false.
Definition float_gt (x y : R) : bool := if Rgt_dec x y then true else false.
Definition float_ge (x y : R) : bool := if Rge_dec x y then true else false.
Definition float_eq (x y : R) : bool := if Req_dec_T x y then true else false.

(** ** The Note object *)

(** The four private attributes [__init__] assigns; the properties
    [frequency], [octave], [base_frequency] and [wavelength] read them. *)
Record Note : Type := mkNote {
  frequency : R;
  octave : R;
  base_frequency : R;
  wavelength : R
}.

(** [Note.__init__]. *)
Definition Note__init__ (frequency : R) : Note :=
  let n_octaves_from_standard :=
    np.sign (frequency - IZR standard_pitch)
    * np.floor (np.abs (np.log2 (frequency / IZR standard_pitch))) in
  let octave := IZR standard_octave + n_octaves_from_standard in
  let base_frequency := frequency * pow 2 (- octave) in
  let wavelength := IZR speed_of_sound / frequency in
  mkNote frequency octave base_frequency wavelength.

(** The argument of [__call__]: a single time, or the array of sample points
    [plot] hands over. *)
Inductive Arg : Type :=
| Scalar (t : R)
| Array (ts : list R).

(** [Note.__call__]: one float, whatever [t] is. *)
Definition Note__call__ (self : Note) (t : Arg) : R :=
  np.sin (2 * np.pi * frequency self).

(** [Note.__str__]: three labelled attributes, one per line, in this order.
    The decimal text of each float is not modelled. *)
Definition Note__str__ (self : Note) : list (string * R) :=
  [ ("Base frequency: "%string, base_frequency self);
    ("Octave: "%string, octave self);
    ("Frequency: "%string, frequency self) ].

(** [Note.half_step], in exact arithmetic: the note it returns when it
    returns.  [Note_half_step] below adds the exceptions of floats. *)
Definition half_step (self : Note) (n_steps : Z) : Note :=
  Note__init__ (frequency self * pow 2 (IZR n_steps / IZR n_tets)).

(** ** The comparison methods and the class namespace *)

Definition Method : Type := Note -> Note -> bool.

(** The comparison [def]s of the class body, in source order, each under the
    name it is given in the source.  The name [__le__] is bound twice; no
    [__ge__] is bound. *)
Definition Note_class_body : list (string * Method) :=
  [ ("__le__"%string,
      fun self other => float_le (frequency self) (frequency other));
    ("__le__"%string,
      fun self other => float_ge (frequency self) (frequency other));
    ("__eq__"%string,
      fun self other => float_eq (frequency self) (frequency other));
    ("__lt__"%string,
      fun self other => float_lt (frequency self) (frequency other));
    ("__gt__"%string,
      fun self other => float_gt (frequency self) (frequency other)) ].

(** A class body is run top to bottom and every [def] rebinds its name in the
    class namespace: the binding that survives is the last one. *)
Fixpoint class_lookup (name : string) (body : list (string * Method))
  : option Method :=
  match body with
  | [] => None
  | (k, m) :: rest =>
      match class_lookup name rest with
      | Some m' => Some m'
      | None => if String.eqb k name then Some m else None
      end
  end.

(** Calling the special method [name] of the class on two notes; [None] when
    the class does not bind it. *)
Definition dispatch (name : string) (a b : Note) : option bool :=
  match class_lookup name Note_class_body with
  | Some m => Some (m a b)
  | None => None
  end.

(** The operators [a <= b], [a == b], [a < b] and [a > b] call the method of
    the left operand. *)
Definition Note_le : Note -> Note -> option bool := dispatch "__le__".
Definition Note_eq : Note -> Note -> option bool := dispatch "__eq__".
Definition Note_lt : Note -> Note -> option bool := dispatch "__lt__".
Definition Note_gt : Note -> Note -> option bool := dispatch "__gt__".




(** Exactly one of three booleans is [true]. *)
Definition exactly_one (x y z : bool) : bool :=
  match x, y, z with
  | true, false, false | false, true, false | false, false, true => true
  | _, _, _ => false
  end.

(** ** Plotting: the calls the body of [plot] performs *)

Definition Axes : Type := nat.
Definition Kwargs : Type := list (string * string).

Inductive Exn : Type :=
| AssertionError
| ValueError
| OverflowError
| ZeroDivisionError.

(** One entry per call made by [plot], in order. *)
Inductive Call : Type :=
| plt_axes (ax : Axes)                                   (* ax = plt.axes() *)
| np_linspace (start stop : R) (num : Z)                 (* np.linspace(...) *)
| self_call (xx : list R)                                (* self(xx) *)
| ax_plot (ax : Axes) (xx : list R) (yy : R) (kwargs : Kwargs)
| ax_set_xlabel (ax : Axes) (label : string)
| ax_set_ylabel (ax : Axes) (label : string).

(** The outcome of running a piece of [plot]: the calls made, the next unused
    surface handle, and an exception or a value. *)
Record Outcome (A : Type) : Type := mkOutcome {
  calls : list Call;
  fresh : nat;
  result : Exn + A
}.
Arguments mkOutcome {A} _ _ _.
Arguments calls {A} _.
Arguments fresh {A} _.
Arguments result {A} _.

Definition M (A : Type) : Type := nat -> Outcome A.

Definition ret {A} (a : A) : M A := fun k => mkOutcome [] k (inr a).

Definition raise {A} (e : Exn) : M A := fun k => mkOutcome [] k (inl e).

Definition bind {A B} (m : M A) (f : A -> M B) : M B :=
  fun k =>
    let o := m k in
    match result o with
    | inl e => mkOutcome (calls o) (fresh o) (inl e)
    | inr a =>
        let o' := f a (fresh o) in
        mkOutcome (calls o ++ calls o') (fresh o') (result o')
    end.

Notation "x <- m ;; f" := (bind m (fun x => f))
  (at level 61, m at next level, right associativity).
Notation "m ;;; f" := (bind m (fun _ => f))
  (at level 61, right associativity).

(** Recording a call. *)
Definition emit (c : Call) : M unit := fun k => mkOutcome [c] k (inr tt).

(** [plt.axes()]: a new surface. *)
Definition new_axes : M Axes :=
  fun k => mkOutcome [plt_axes k] (S k) (inr k).

(** The default of the parameter [n_points]. *)
Definition default_n_points : Z := 100.

(** [Note.plot].  [x_range] has no default in the source and is passed
    explicitly, possibly as [None]; a parameter with a default is [None]
    when the caller omits it.  [yy] is the single float [self(xx)]:
    [ax.plot] takes it as one y value and raises ValueError unless [xx] has
    one x value too (x and y must have the same first dimension). *)
Definition plot (self : Note) (x_range : option (R * R))
    (n_points : option Z) (x_label y_label : option string)
    (ax : option Axes) (kwargs : Kwargs) : M Axes :=
  let n_points := match n_points with Some n => n | None => default_n_points end in
  x_range <- match x_range with
             | Some xr =>
                 if float_lt (fst xr) (snd xr) then ret xr
                 else raise AssertionError
             | None => ret (0, wavelength self)
             end ;;
  ax <- match ax with
        | None => new_axes
        | Some a => ret a
        end ;;
  xx <- (emit (np_linspace (fst x_range) (snd x_range) n_points) ;;;
         match np.linspace (fst x_range) (snd x_range) n_points with
         | Some xx => ret xx
         | None => raise ValueError
         end) ;;
  yy <- (emit (self_call xx) ;;; ret (Note__call__ self (Array xx))) ;;
  emit (ax_plot ax xx yy kwargs) ;;;
  (if (length xx =? 1)%nat then ret tt else raise ValueError) ;;;
  match x_label with
  | Some l => emit (ax_set_xlabel ax l)
  | None => ret tt
  end ;;;
  match y_label with
  | Some l => emit (ax_set_ylabel ax l)
  | None => ret tt
  end ;;;
  ret ax.

(** The surface [plot] draws on and returns: the one it is given, or the
    new one. *)
Definition surface (ax : option Axes) (k : nat) : Axes :=
  match ax with
  | Some a => a
  | None => k
  end.

(** The calls [plot] makes before sampling and after drawing. *)
Definition axes_calls (ax : option Axes) (k : nat) : list Call :=
  match ax with
  | Some _ => []
  | None => [plt_axes k]
  end.

Definition label_calls (a : Axes) (x_label y_label : option string)
  : list Call :=
  match x_label with Some l => [ax_set_xlabel a l] | None => [] end
  ++ match y_label with Some l => [ax_set_ylabel a l] | None => [] end.

(** The range [plot] samples, and the number of points it asks for. *)
Definition range_start (x_range : option (R * R)) : R :=
  match x_range with
  | Some xr => fst xr
  | None => 0
  end.

Definition range_stop (self : Note) (x_range : option (R * R)) : R :=
  match x_range with
  | Some xr => snd xr
  | None => wavelength self
  end.

Definition points_asked (n_points : option Z) : Z :=
  match n_points with
  | Some n => n
  | None => default_n_points
  end.

(** Whether a call creates a surface, and whether it draws. *)
Definition is_plt_axes (c : Call) : bool :=
  match c with
  | plt_axes _ => true
  | _ => false
  end.

Definition is_ax_plot (c : Call) : bool :=
  match c with
  | ax_plot _ _ _ _ => true
  | _ => false
  end.

(** ** Transposition at the ends of the range of floats *)

(** Python's [2 ** y] for a float [y]: OverflowError when the power is
    beyond the largest double ([y >= 1024]), and 0.0 when it is at most half
    the smallest positive double ([y <= -1075]). *)
Definition float_pow2 (y : R) : Exn + R :=
  if float_le 1024 y then inl OverflowError
  else if float_le y (-1075) then inr 0
  else inr (pow 2 y).

(** The product of two floats: 0.0 when its magnitude is at most half the
    smallest positive double.  (A product beyond the largest double is inf,
    which raises nothing and is not modelled.) *)
Definition float_mul (x y : R) : R :=
  if float_le (Rabs (x * y)) (pow 2 (-1075)) then 0 else x * y.

(** [Note(frequency)] as a call that may raise: the last statement of
    [__init__], [speed_of_sound / self.__frequency], raises
    ZeroDivisionError at frequency 0. *)
Definition Note_new (frequency : R) : Exn + Note :=
  if float_eq frequency 0 then inl ZeroDivisionError
  else inr (Note__init__ frequency).

(** [Note.half_step] as a call that may raise. *)
Definition Note_half_step (self : Note) (n_steps : Z) : Exn + Note :=
  match float_pow2 (IZR n_steps / IZR n_tets) with
  | inl e => inl e
  | inr p => Note_new (float_mul (frequency self) p)
  end.

(** The steps for which neither the power nor the scaled frequency leaves
    the range of floats. *)
Definition half_step_returns (self : Note) (n_steps : Z) : Prop :=
  (-12900 < n_steps < 12288)%Z
  /\ pow 2 (-1075)
     < Rabs (frequency self * pow 2 (IZR n_steps / IZR n_tets)).

(** ** Notes as objects: the store and the operations of the class *)

Definition ref : Type := nat.
Definition Store : Type := list Note.

(** Creating an object: the store grows by one, the new reference is the
    old length. *)
Definition alloc (n : Note) (st : Store) : Store * ref :=
  (st ++ [n], length st).

(** [Note(frequency)] as an expression. *)
Definition new_Note (frequency : R) (st : Store) : Store * ref :=
  alloc (Note__init__ frequency) st.

(** [self.half_step(n_steps)] on a reference: reads [self], builds a Note. *)
Definition half_step_at (self : ref) (n_steps : Z) (st : Store)
  : option (Store * ref) :=
  match nth_error st self with
  | Some s => Some (alloc (half_step s n_steps) st)
  | None => None
  end.


(** What a client can do with the class: construct, and call its methods. *)
Inductive Op : Type :=
| OpNote (frequency : R)
| OpCall (self : ref) (t : Arg)
| OpStr (self : ref)
| OpProperty (name : string) (self : ref)
| OpCompare (name : string) (a b : ref)
| OpHalfStep (self : ref) (n_steps : Z)
| OpPlot (self : ref) (x_range : option (R * R)) (n_points : option Z)
         (x_label y_label : option string) (ax : option Axes)
         (kwargs : Kwargs).

Record State : Type := mkState {
  store : Store;
  next_axes : nat;
  log : list Call
}.

Definition initial : State := mkState [] 0 [].

(** The effect of one operation on the store and on the plotting side.
    Only the constructor stores attributes; [__call__], [__str__], the
    properties and the comparisons read them and return a value. *)
Definition exec (op : Op) (s : State) : State :=
  match op with
  | OpNote f =>
      mkState (fst (new_Note f (store s))) (next_axes s) (log s)
  | OpCall _ _ => s
  | OpStr _ => s
  | OpProperty _ _ => s
  | OpCompare _ _ _ => s
  | OpHalfStep self n =>
      match half_step_at self n (store s) with
      | Some (st', _) => mkState st' (next_axes s) (log s)
      | None => s
      end
  | OpPlot self xr np xl yl ax kw =>
      match nth_error (store s) self with
      | Some n =>
          let o := plot n xr np xl yl ax kw (next_axes s) in
          mkState (store s) (fresh o) (log s ++ calls o)
      | None => s
      end
  end.

Definition run (ops : list Op) (s : State) : State :=
  fold_left (fun s op => exec op s) ops s.

(** Clients that construct notes from positive frequencies only. *)
Definition positive_op (op : Op) : Prop :=
  match op with
  | OpNote f => 0 < f
  | _ => True
  end.

(** The identity between the derived attributes of a note. *)
Definition octave_identity (n : Note) : Prop :=
  base_frequency n * pow 2 (octave n) = frequency n.

(** A note as the constructor leaves it, for a positive frequency. *)
Definition constructed (n : Note) : Prop :=
  0 < frequency n /\ n = Note__init__ (frequency n).

(** ** Facts about the numeric collaborator *)

Lemma ln2_pos : 0 < ln 2.
Proof.
  rewrite <- ln_1. apply ln_increasing; lra.
Qed.

Lemma log2_1 : np.log2 1 = 0.
Proof.
  unfold np.log2. rewrite ln_1. unfold Rdiv. apply Rmult_0_l.
Qed.

Lemma log2_2 : np.log2 2 = 1.
Proof.
  unfold np.log2. field. pose proof ln2_pos. lra.
Qed.

Lemma log2_half : np.log2 (/ 2) = -1.
Proof.
  unfold np.log2. rewrite ln_Rinv by lra. field. pose proof ln2_pos. lra.
Qed.

Lemma floor_IZR (z : Z) : np.floor (IZR z) = IZR z.
Proof.
  unfold np.floor. now rewrite ZfloorZ.
Qed.

Lemma sign_pos (x : R) : 0 < x -> np.sign x = 1.
Proof.
  intros H. unfold np.sign.
  destruct (Rlt_dec x 0); [lra|]. destruct (Rlt_dec 0 x); [reflexivity|lra].
Qed.

Lemma sign_neg (x : R) : x < 0 -> np.sign x = -1.
Proof.
  intros H. unfold np.sign. destruct (Rlt_dec x 0); [reflexivity|lra].
Qed.

Lemma sign_0 : np.sign 0 = 0.
Proof.
  unfold np.sign.
  destruct (Rlt_dec 0 0); [lra|]. reflexivity.
Qed.

(** Dividing by a positive number and then comparing with 1 is comparing
    with that number. *)
Lemma sign_ratio (f p : R) :
  0 < p -> np.sign (f / p - 1) = np.sign (f - p).
Proof.
  intros Hp.
  assert (E : f / p - 1 = (f - p) * / p) by (field; lra).
  assert (Hi : 0 < / p) by now apply Rinv_0_lt_compat.
  destruct (Rtotal_order f p) as [H | [H | H]].
  - rewrite !sign_neg; try lra. rewrite E.
    replace 0 with (0 * / p) by ring.
    apply Rmult_lt_compat_r; lra.
  - subst f. replace (p / p - 1) with 0 by (field; lra).
    now replace (p - p) with 0 by ring.
  - rewrite !sign_pos; try lra. rewrite E.
    apply Rmult_lt_0_compat; lra.
Qed.

Lemma pow_neg_pos (x : R) : pow 2 (- x) * pow 2 x = 1.
Proof.
  unfold pow. rewrite <- Rpower_plus.
  replace (- x + x) with 0 by ring. apply Rpower_O. lra.
Qed.

Lemma pow_2_1 : pow 2 1 = 2.
Proof. unfold pow. apply Rpower_1. lra. Qed.

Lemma pow_2_0 : pow 2 0 = 1.
Proof. unfold pow. apply Rpower_O. lra. Qed.

Lemma pow_2_m1 : pow 2 (-1) = / 2.
Proof.
  unfold pow. replace (-1) with (- (1)) by lra.
  rewrite Rpower_Ropp, Rpower_1 by lra. reflexivity.
Qed.

Lemma pow_2_pos (x : R) : 0 < pow 2 x.
Proof. unfold pow, Rpower. apply exp_pos. Qed.


(** ** The constructor *)

Lemma frequency_init (f : R) : frequency (Note__init__ f) = f.
Proof. reflexivity. Qed.

Lemma octave_init (f : R) :
  octave (Note__init__ f)
  = 4 + np.sign (f - 440) * np.floor (Rabs (np.log2 (f / 440))).
Proof. reflexivity. Qed.

Lemma octave_440 : octave (Note__init__ 440) = 4.
Proof.
  rewrite octave_init.
  replace (440 - 440) with 0 by ring. rewrite sign_0. ring.
Qed.

Lemma octave_880 : octave (Note__init__ 880) = 5.
Proof.
  rewrite octave_init.
  replace (880 / 440) with 2 by field.
  rewrite log2_2, Rabs_R1, (floor_IZR 1), sign_pos by lra. ring.
Qed.

Lemma octave_220 : octave (Note__init__ 220) = 3.
Proof.
  rewrite octave_init.
  replace (220 / 440) with (/ 2) by field.
  rewrite log2_half, sign_neg by lra.
  replace (Rabs (-1)) with 1 by (rewrite Rabs_left; lra).
  rewrite (floor_IZR 1). ring.
Qed.

(** C3: for a positive frequency [f] the octave of [Note(f)] is
    [4 + sign(f/440 - 1) * floor(|log2(f/440)|)]; the notes at 440, 880 and
    220 Hz are in octaves 4, 5 and 3. *)
Theorem octave_formula :
  (forall f : R, 0 < f ->
     octave (Note__init__ f)
     = 4 + np.sign (f / 440 - 1) * np.floor (Rabs (np.log2 (f / 440))))
  /\ octave (Note__init__ 440) = 4
  /\ octave (Note__init__ 880) = 5
  /\ octave (Note__init__ 220) = 3.
Proof.
  split; [| auto using octave_440, octave_880, octave_220].
  intros f _. rewrite octave_init, sign_ratio by lra. reflexivity.
Qed.

Lemma octave_formula_witness :
  0 < 660 /\
  octave (Note__init__ 660)
  = 4 + np.sign (660 / 440 - 1) * np.floor (Rabs (np.log2 (660 / 440))).
Proof.
  split; [lra | apply (proj1 octave_formula 660); lra].
Defined.

Lemma init_octave_identity (f : R) : octave_identity (Note__init__ f).
Proof.
  unfold octave_identity. cbn [base_frequency octave frequency Note__init__].
  rewrite Rmult_assoc, pow_neg_pos. ring.
Qed.

(** C9: for a positive frequency [f], the wavelength of [Note(f)] times [f]
    is the speed of sound, 343. *)
Theorem wavelength_frequency (f : R) :
  0 < f -> wavelength (Note__init__ f) * f = 343.
Proof.
  intros Hf. cbn [wavelength Note__init__]. unfold speed_of_sound.
  field. lra.
Qed.

Lemma wavelength_frequency_witness :
  0 < 440 /\ wavelength (Note__init__ 440) * 440 = 343.
Proof.
  split; [lra | apply (wavelength_frequency 440); lra].
Defined.

(** ** The waveform *)

(** C1: calling a note returns [sin(2 pi frequency)] whatever [t] is, so any
    two calls on the same note agree. *)
Theorem call_ignores_t (self : Note) (t t' : Arg) :
  Note__call__ self t = Rtrigo_def.sin (2 * PI * frequency self)
  /\ Note__call__ self t = Note__call__ self t'.
Proof.
  split; reflexivity.
Qed.

(** ** Comparisons *)

Lemma float_lt_spec (x y : R) : float_lt x y = true <-> x < y.
Proof. unfold float_lt. destruct (Rlt_dec x y); intuition discriminate. Qed.

Lemma float_gt_spec (x y : R) : float_gt x y = true <-> x > y.
Proof. unfold float_gt. destruct (Rgt_dec x y); intuition discriminate. Qed.


Lemma float_le_spec (x y : R) : float_le x y = true <-> x <= y.
Proof. unfold float_le. destruct (Rle_dec x y); intuition discriminate. Qed.

Lemma float_eq_spec (x y : R) : float_eq x y = true <-> x = y.
Proof. unfold float_eq. destruct (Req_dec_T x y); intuition discriminate. Qed.

(** The methods the class namespace ends up with. *)
Lemma lookup_le :
  class_lookup "__le__" Note_class_body
  = Some (fun self other => float_ge (frequency self) (frequency other)).
Proof. reflexivity. Qed.

Lemma lookup_ge : class_lookup "__ge__" Note_class_body = None.
Proof. reflexivity. Qed.

Lemma Note_lt_eq (a b : Note) :
  Note_lt a b = Some (float_lt (frequency a) (frequency b)).
Proof. reflexivity. Qed.

Lemma Note_eq_eq (a b : Note) :
  Note_eq a b = Some (float_eq (frequency a) (frequency b)).
Proof. reflexivity. Qed.

Lemma Note_gt_eq (a b : Note) :
  Note_gt a b = Some (float_gt (frequency a) (frequency b)).
Proof. reflexivity. Qed.

Lemma Note_le_eq (a b : Note) :
  Note_le a b = Some (float_ge (frequency a) (frequency b)).
Proof. reflexivity. Qed.




(** C8: [<], [==] and [>] on notes are the strict order and the equality of
    the frequencies, and exactly one of the three holds. *)
Theorem trichotomy (a b : Note) :
  exists l e g : bool,
    Note_lt a b = Some l /\ Note_eq a b = Some e /\ Note_gt a b = Some g
    /\ (l = true <-> frequency a < frequency b)
    /\ (e = true <-> frequency a = frequency b)
    /\ (g = true <-> frequency a > frequency b)
    /\ exactly_one l e g = true.
Proof.
  exists (float_lt (frequency a) (frequency b)),
         (float_eq (frequency a) (frequency b)),
         (float_gt (frequency a) (frequency b)).
  repeat split;
    try apply float_lt_spec; try apply float_eq_spec; try apply float_gt_spec.
  unfold float_lt, float_eq, float_gt.
  destruct (Rlt_dec (frequency a) (frequency b)),
           (Req_dec_T (frequency a) (frequency b)),
           (Rgt_dec (frequency a) (frequency b));
    try reflexivity; exfalso; lra.
Qed.

(** ** Transposition and the life of a note *)

Lemma half_step_frequency_eq (self : Note) (n_steps : Z) :
  frequency (half_step self n_steps)
  = frequency self * pow 2 (IZR n_steps / 12).
Proof. reflexivity. Qed.

Lemma alloc_old (m : Note) (st : Store) (r : ref) (n : Note) :
  nth_error st r = Some n -> nth_error (fst (alloc m st)) r = Some n.
Proof.
  intros H. cbn [alloc fst].
  rewrite nth_error_app1; [exact H |].
  apply nth_error_Some. congruence.
Qed.



(** No operation of the class changes a note that exists. *)
Lemma exec_keeps (op : Op) (s : State) (r : ref) (n : Note) :
  nth_error (store s) r = Some n -> nth_error (store (exec op s)) r = Some n.
Proof.
  intros H. destruct op; cbn [exec store]; try exact H.
  - now apply alloc_old.
  - unfold half_step_at. destruct (nth_error (store s) self); [| exact H].
    cbn [alloc store]. now apply (alloc_old _ _ _ _ H).
  - destruct (nth_error (store s) self); exact H.
Qed.

Lemma run_keeps (ops : list Op) :
  forall (s : State) (r : ref) (n : Note),
    nth_error (store s) r = Some n ->
    nth_error (store (run ops s)) r = Some n.
Proof.
  induction ops as [| op ops IH]; intros s r n H; [exact H |].
  cbn [run fold_left]. apply IH. now apply exec_keeps.
Qed.

Lemma constructed_init (f : R) : 0 < f -> constructed (Note__init__ f).
Proof. intros H. split; [exact H | reflexivity]. Qed.

Lemma constructed_half_step (s : Note) (n_steps : Z) :
  constructed s -> constructed (half_step s n_steps).
Proof.
  intros [Hs _]. apply constructed_init.
  apply Rmult_lt_0_compat; [exact Hs | apply pow_2_pos].
Qed.

Lemma constructed_identity (n : Note) : constructed n -> octave_identity n.
Proof. intros [_ ->]. apply init_octave_identity. Qed.

Lemma Forall_alloc (P : Note -> Prop) (m : Note) (st : Store) :
  Forall P st -> P m -> Forall P (fst (alloc m st)).
Proof.
  intros Hst Hm. cbn [alloc fst]. apply Forall_app. split; auto.
Qed.

(** Every note of the store is one the constructor made. *)
Lemma exec_constructed (op : Op) (s : State) :
  positive_op op ->
  Forall constructed (store s) -> Forall constructed (store (exec op s)).
Proof.
  intros Hop Hs. destruct op; cbn [exec store]; try exact Hs.
  - apply Forall_alloc; [exact Hs | now apply constructed_init].
  - unfold half_step_at.
    destruct (nth_error (store s) self) as [n |] eqn:E; [| exact Hs].
    cbn [alloc store]. apply (Forall_alloc constructed _ _ Hs).
    apply constructed_half_step.
    eapply Forall_forall; [exact Hs |]. eapply nth_error_In; exact E.
  - destruct (nth_error (store s) self); exact Hs.
Qed.

Lemma run_constructed (ops : list Op) :
  forall s : State,
    Forall positive_op ops ->
    Forall constructed (store s) -> Forall constructed (store (run ops s)).
Proof.
  induction ops as [| op ops IH]; intros s Hops Hs; [exact Hs |].
  inversion Hops; subst. cbn [run fold_left].
  apply IH; [assumption |]. now apply exec_constructed.
Qed.

(** C4: for a positive frequency [f], [Note(f)] has
    [base_frequency * 2^octave = f]; no operation changes a note once it is
    in the store, and every note a client ever reaches, by construction or by
    [half_step], satisfies the identity. *)
Theorem octave_identity_always :
  (forall f : R, 0 < f ->
     base_frequency (Note__init__ f) * pow 2 (octave (Note__init__ f)) = f)
  /\ (forall (ops : list Op) (s : State) (r : ref) (n : Note),
        nth_error (store s) r = Some n ->
        nth_error (store (run ops s)) r = Some n)
  /\ (forall (ops : list Op) (r : ref) (n : Note),
        Forall positive_op ops ->
        nth_error (store (run ops initial)) r = Some n ->
        base_frequency n * pow 2 (octave n) = frequency n).
Proof.
  split; [| split].
  - intros f _. apply (init_octave_identity f).
  - intros ops. apply run_keeps.
  - intros ops r n Hops Hn.
    apply constructed_identity.
    assert (H : Forall constructed (store (run ops initial)))
      by (apply run_constructed; [exact Hops | constructor]).
    eapply Forall_forall; [exact H |]. eapply nth_error_In; exact Hn.
Qed.

Lemma octave_identity_always_witness :
  base_frequency (Note__init__ 440) * pow 2 (octave (Note__init__ 440)) = 440
  /\ (let s := exec (OpNote 440) initial in
      let ops := [OpHalfStep 0%nat 12; OpCall 0%nat (Scalar 1)] in
      let n := half_step (Note__init__ 440) 12 in
      nth_error (store (run ops s)) 0%nat = Some (Note__init__ 440)
      /\ nth_error (store (run (OpNote 440 :: ops) initial)) 1%nat = Some n
      /\ base_frequency n * pow 2 (octave n) = frequency n).
Proof.
  split.
  - apply (proj1 octave_identity_always 440). lra.
  - intros s ops n. split; [| split].
    + apply (proj1 (proj2 octave_identity_always) ops s). reflexivity.
    + reflexivity.
    + apply (proj2 (proj2 octave_identity_always) (OpNote 440 :: ops) 1%nat n);
        [| reflexivity].
      repeat constructor. cbn. lra.
Defined.

(** ** Plotting *)

(** Running [bind]: the second part runs from where the first stopped, or
    not at all. *)
Lemma bind_ok {A B : Type} (m : M A) (f : A -> M B) (k k1 k2 : nat)
    (cs1 cs2 : list Call) (a : A) (r : Exn + B) :
  m k = mkOutcome cs1 k1 (inr a) ->
  f a k1 = mkOutcome cs2 k2 r ->
  bind m f k = mkOutcome (cs1 ++ cs2) k2 r.
Proof.
  intros H1 H2. unfold bind. rewrite H1. cbn [result calls fresh].
  rewrite H2. reflexivity.
Qed.

Lemma bind_fail {A B : Type} (m : M A) (f : A -> M B) (k k1 : nat)
    (cs1 : list Call) (e : Exn) :
  m k = mkOutcome cs1 k1 (inl e) ->
  bind m f k = mkOutcome cs1 k1 (inl e).
Proof.
  intros H1. unfold bind. rewrite H1. reflexivity.
Qed.

(** One statement of a straight-line run. *)
Ltac run_step := eapply bind_ok; [reflexivity | cbv beta].

Section Plot.

Variables (self : Note) (n_points : option Z).
Variables (x_label y_label : option string) (ax : option Axes).
Variables (kwargs : Kwargs) (k : nat).

Let n : Z := match n_points with Some n => n | None => default_n_points end.

(** A refused range: nothing is called. *)
Lemma plot_refused (x0 x1 : R) :
  x0 >= x1 ->
  plot self (Some (x0, x1)) n_points x_label y_label ax kwargs k
  = mkOutcome [] k (inl AssertionError).
Proof.
  intros H. unfold plot. cbv zeta. apply bind_fail.
  unfold fst, snd, float_lt. destruct (Rlt_dec x0 x1); [lra | reflexivity].
Qed.

(** The first statement of [plot] once the range is known to pass. *)
Lemma settled_range (x_range : option (R * R)) (x0 x1 : R) :
  match x_range with
  | Some xr => xr = (x0, x1) /\ x0 < x1
  | None => (x0, x1) = (0, wavelength self)
  end ->
  match x_range with
  | Some xr =>
      if float_lt (fst xr) (snd xr) then ret xr else raise AssertionError
  | None => ret (0, wavelength self)
  end = ret (x0, x1).
Proof.
  intros Hr. destruct x_range as [xr |].
  - destruct Hr as [-> Hlt]. cbn [fst snd].
    unfold float_lt. destruct (Rlt_dec x0 x1); [reflexivity | lra].
  - now rewrite Hr.
Qed.

(** What is said of the range once it has passed the first statement. *)
Let settled (x_range : option (R * R)) (x0 x1 : R) : Prop :=
  match x_range with
  | Some xr => xr = (x0, x1) /\ x0 < x1
  | None => (x0, x1) = (0, wavelength self)
  end.

(** The calls of a run that reaches [ax.plot]. *)
Let up_to_drawing (x0 x1 : R) (xx : list R) : list Call :=
  axes_calls ax k
  ++ [np_linspace x0 x1 n; self_call xx;
      ax_plot (surface ax k) xx (Note__call__ self (Array xx)) kwargs].

(** The run of [plot] from the range on, once the range is settled, the
    generator has answered, and [ax.plot] accepts the one point. *)
Lemma plot_sampled (x_range : option (R * R)) (x0 x1 : R) (xx : list R) :
  settled x_range x0 x1 ->
  np.linspace x0 x1 n = Some xx ->
  length xx = 1%nat ->
  plot self x_range n_points x_label y_label ax kwargs k
  = mkOutcome
      (axes_calls ax k
       ++ [np_linspace x0 x1 n; self_call xx;
           ax_plot (surface ax k) xx (Note__call__ self (Array xx)) kwargs]
       ++ label_calls (surface ax k) x_label y_label)
      (match ax with Some _ => k | None => S k end)
      (inr (surface ax k)).
Proof.
  intros Hr Hxx Hlen. unfold plot. fold n. cbv zeta.
  rewrite (settled_range x_range x0 x1 Hr).
  destruct ax, x_label, y_label;
    (etransitivity;
     [ run_step; unfold fst, snd; run_step;
       eapply bind_ok;
         [eapply bind_ok; [reflexivity | rewrite Hxx; reflexivity] | cbv beta];
       eapply bind_ok; [eapply bind_ok; reflexivity | cbv beta];
       run_step;
       eapply bind_ok; [rewrite Hlen; reflexivity | cbv beta];
       run_step; run_step; reflexivity
     | reflexivity ]).
Qed.

(** The same run when [ax.plot] refuses the points: no label is set. *)
Lemma plot_shape_refused (x_range : option (R * R)) (x0 x1 : R)
    (xx : list R) :
  settled x_range x0 x1 ->
  np.linspace x0 x1 n = Some xx ->
  length xx <> 1%nat ->
  plot self x_range n_points x_label y_label ax kwargs k
  = mkOutcome
      (axes_calls ax k
       ++ [np_linspace x0 x1 n; self_call xx;
           ax_plot (surface ax k) xx (Note__call__ self (Array xx)) kwargs])
      (match ax with Some _ => k | None => S k end)
      (inl ValueError).
Proof.
  intros Hr Hxx Hlen. unfold plot. fold n. cbv zeta.
  rewrite (settled_range x_range x0 x1 Hr).
  apply Nat.eqb_neq in Hlen.
  destruct ax;
    (etransitivity;
     [ run_step; unfold fst, snd; run_step;
       eapply bind_ok;
         [eapply bind_ok; [reflexivity | rewrite Hxx; reflexivity] | cbv beta];
       eapply bind_ok; [eapply bind_ok; reflexivity | cbv beta];
       run_step;
       apply bind_fail; rewrite Hlen; reflexivity
     | reflexivity ]).
Qed.

(** The same run when the generator refuses [n_points]. *)
Lemma plot_not_sampled (x_range : option (R * R)) (x0 x1 : R) :
  settled x_range x0 x1 ->
  np.linspace x0 x1 n = None ->
  plot self x_range n_points x_label y_label ax kwargs k
  = mkOutcome
      (axes_calls ax k ++ [np_linspace x0 x1 n])
      (match ax with Some _ => k | None => S k end)
      (inl ValueError).
Proof.
  intros Hr Hxx. unfold plot. fold n. cbv zeta.
  rewrite (settled_range x_range x0 x1 Hr).
  destruct ax;
    (etransitivity;
     [ run_step; unfold fst, snd; run_step; apply bind_fail;
       eapply bind_ok; [reflexivity | rewrite Hxx; reflexivity]
     | reflexivity ]).
Qed.

(** The four ways a run of [plot] can go: the range is refused; the
    generator refuses the number of points; [ax.plot] refuses the points;
    the point is drawn and the labels are set. *)
Lemma plot_run (x_range : option (R * R)) :
  let x0 := range_start x_range in
  let x1 := range_stop self x_range in
  let o := plot self x_range n_points x_label y_label ax kwargs k in
  (x_range <> None /\ x0 >= x1 /\ o = mkOutcome [] k (inl AssertionError))
  \/ ((x_range = None \/ x0 < x1) /\ (n < 0)%Z
      /\ np.linspace x0 x1 n = None
      /\ o = mkOutcome (axes_calls ax k ++ [np_linspace x0 x1 n])
                       (match ax with Some _ => k | None => S k end)
                       (inl ValueError))
  \/ (exists xx : list R,
        (x_range = None \/ x0 < x1) /\ (0 <= n)%Z
        /\ np.linspace x0 x1 n = Some xx /\ length xx <> 1%nat
        /\ o = mkOutcome (up_to_drawing x0 x1 xx)
                         (match ax with Some _ => k | None => S k end)
                         (inl ValueError))
  \/ (exists xx : list R,
        (x_range = None \/ x0 < x1) /\ n = 1%Z
        /\ np.linspace x0 x1 n = Some xx /\ length xx = 1%nat
        /\ o = mkOutcome
                 (up_to_drawing x0 x1 xx
                  ++ label_calls (surface ax k) x_label y_label)
                 (match ax with Some _ => k | None => S k end)
                 (inr (surface ax k))).
Proof.
  intros x0 x1 o.
  assert (D : (x_range <> None /\ x0 >= x1)
              \/ ((x_range = None \/ x0 < x1) /\ settled x_range x0 x1)).
  { subst x0 x1. unfold settled. destruct x_range as [[u v] |];
      cbn [range_start range_stop fst snd].
    - destruct (Rlt_dec u v);
        [right; auto | left; split; [discriminate | lra]].
    - right. split; [left |]; reflexivity. }
  destruct D as [[Hn Hge] | [Hv Hr]].
  - left. repeat split; try assumption.
    subst o. destruct x_range as [[u v] |]; [| contradiction].
    now apply plot_refused.
  - right. destruct (np.linspace x0 x1 n) as [xx |] eqn:E.
    + right.
      assert (Hn : (0 <= n)%Z).
      { unfold np.linspace in E.
        destruct (Z.ltb_spec n 0); [discriminate | assumption]. }
      assert (Hlen : length xx = Z.to_nat n).
      { unfold np.linspace in E. destruct (n <? 0)%Z; [discriminate |].
        injection E as <-. now rewrite length_map, length_seq. }
      destruct (Nat.eq_dec (length xx) 1) as [H1 | H1].
      * right. exists xx. repeat split; try assumption; [lia |].
        subst o. unfold up_to_drawing. rewrite <- app_assoc.
        exact (plot_sampled x_range x0 x1 xx Hr E H1).
      * left. exists xx. repeat split; try assumption.
        subst o. exact (plot_shape_refused x_range x0 x1 xx Hr E H1).
    + left. repeat split; try assumption.
      * unfold np.linspace in E.
        destruct (Z.ltb_spec n 0); [assumption | discriminate].
      * subst o. exact (plot_not_sampled x_range x0 x1 Hr E).
Qed.


End Plot.

(** The four ways a run of [plot] can go: the range is refused; the
    generator refuses the number of points; [ax.plot] refuses the points;
    the point is drawn and the labels are set. *)
Lemma plot_cases (self : Note) (x_range : option (R * R))
    (n_points : option Z) (x_label y_label : option string)
    (ax : option Axes) (kwargs : Kwargs) (k : nat) :
  let x0 := range_start x_range in
  let x1 := range_stop self x_range in
  let n := points_asked n_points in
  let o := plot self x_range n_points x_label y_label ax kwargs k in
  let k' := match ax with Some _ => k | None => S k end in
  let drawn := fun xx : list R =>
    axes_calls ax k
    ++ [np_linspace x0 x1 n; self_call xx;
        ax_plot (surface ax k) xx (Note__call__ self (Array xx)) kwargs] in
  (x_range <> None /\ x0 >= x1 /\ o = mkOutcome [] k (inl AssertionError))
  \/ ((x_range = None \/ x0 < x1) /\ (n < 0)%Z
      /\ np.linspace x0 x1 n = None
      /\ o = mkOutcome (axes_calls ax k ++ [np_linspace x0 x1 n]) k'
                       (inl ValueError))
  \/ (exists xx : list R,
        (x_range = None \/ x0 < x1) /\ (0 <= n)%Z
        /\ np.linspace x0 x1 n = Some xx /\ length xx <> 1%nat
        /\ o = mkOutcome (drawn xx) k' (inl ValueError))
  \/ (exists xx : list R,
        (x_range = None \/ x0 < x1) /\ n = 1%Z
        /\ np.linspace x0 x1 n = Some xx /\ length xx = 1%nat
        /\ o = mkOutcome
                 (drawn xx ++ label_calls (surface ax k) x_label y_label)
                 k' (inr (surface ax k))).
Proof.
  exact (plot_run self n_points x_label y_label ax kwargs k x_range).
Qed.

(** C6: with [x_range] given and [x_range[0] >= x_range[1]], [plot] raises
    the assertion error having called nothing: no surface is created, no
    point is generated or sampled, nothing is drawn, and the state of the
    client is what it was. *)
Theorem plot_invalid_range (self : Note) (x0 x1 : R) (n_points : option Z)
    (x_label y_label : option string) (ax : option Axes) (kwargs : Kwargs)
    (k : nat) :
  x0 >= x1 ->
  plot self (Some (x0, x1)) n_points x_label y_label ax kwargs k
  = mkOutcome [] k (inl AssertionError)
  /\ forall (s : State) (r : ref),
       exec (OpPlot r (Some (x0, x1)) n_points x_label y_label ax kwargs) s
       = s.
Proof.
  intros H. split; [now apply plot_refused |].
  intros [st nx lg] r. cbn [exec store next_axes log].
  destruct (nth_error st r); [| reflexivity].
  rewrite plot_refused by exact H. cbn [calls fresh].
  now rewrite app_nil_r.
Qed.

Lemma plot_invalid_range_witness :
  1 >= 0
  /\ plot (Note__init__ 440) (Some (1, 0)) None None None None [] 0%nat
     = mkOutcome [] 0%nat (inl AssertionError)
  /\ forall (s : State) (r : ref),
       exec (OpPlot r (Some (1, 0)) None None None None []) s = s.
Proof.
  split; [lra |].
  apply (plot_invalid_range (Note__init__ 440) 1 0 None None None None []
           0%nat).
  lra.
Defined.

(** ** The linear-spacing generator *)

Lemma linspace_some (a b : R) (n : Z) :
  (0 <= n)%Z ->
  np.linspace a b n
  = Some (map (fun i => a + INR i * ((b - a) / IZR (n - 1)))
              (seq 0 (Z.to_nat n))).
Proof.
  intros H. unfold np.linspace.
  destruct (Z.ltb_spec n 0); [lia | reflexivity].
Qed.

(** A single point is the start of the range. *)
Lemma linspace_single (a b : R) : np.linspace a b 1 = Some [a].
Proof.
  rewrite linspace_some by lia.
  change (seq 0 (Z.to_nat 1)) with [0%nat]. cbn [map INR].
  replace (a + 0 * ((b - a) / IZR (1 - 1))) with a by ring. reflexivity.
Qed.

Lemma linspace_length (a b : R) (n : Z) (xx : list R) :
  np.linspace a b n = Some xx -> length xx = Z.to_nat n.
Proof.
  unfold np.linspace. destruct (n <? 0)%Z; [discriminate |].
  intros [= <-]. now rewrite length_map, length_seq.
Qed.

Lemma linspace_nth (a b : R) (n : Z) (xx : list R) (i : nat) :
  np.linspace a b n = Some xx ->
  (i < Z.to_nat n)%nat ->
  nth i xx 0 = a + INR i * ((b - a) / IZR (n - 1)).
Proof.
  unfold np.linspace. destruct (n <? 0)%Z; [discriminate |].
  intros [= <-] Hi.
  set (f := fun i : nat => a + INR i * ((b - a) / IZR (n - 1))).
  rewrite (nth_indep _ 0 (f 0%nat)) by (now rewrite length_map, length_seq).
  rewrite map_nth, seq_nth by exact Hi. reflexivity.
Qed.

Lemma linspace_first (a b : R) (n : Z) (xx : list R) :
  np.linspace a b n = Some xx -> (1 <= n)%Z -> nth 0 xx 0 = a.
Proof.
  intros H Hn. rewrite (linspace_nth a b n xx 0 H) by lia.
  cbn [INR]. ring.
Qed.

Lemma linspace_last (a b : R) (n : Z) (xx : list R) :
  np.linspace a b n = Some xx -> (2 <= n)%Z ->
  nth (Z.to_nat n - 1) xx 0 = b.
Proof.
  intros H Hn. rewrite (linspace_nth a b n xx _ H) by lia.
  assert (E : INR (Z.to_nat n - 1) = IZR (n - 1)).
  { rewrite INR_IZR_INZ. f_equal. lia. }
  rewrite E. field.
  apply not_0_IZR. lia.
Qed.

(** The points of a range that runs upwards stay inside it. *)
Lemma linspace_inside (a b : R) (n : Z) (xx : list R) (x : R) :
  np.linspace a b n = Some xx -> a <= b -> In x xx -> a <= x <= b.
Proof.
  intros H Hab Hx.
  destruct (In_nth xx x 0 Hx) as (i & Hi & <-).
  rewrite (linspace_length a b n xx H) in Hi.
  rewrite (linspace_nth a b n xx i H Hi).
  assert (Hn : (1 <= n)%Z) by lia.
  destruct (Z.eq_dec n 1) as [-> | Hn1].
  - assert (i = 0)%nat as -> by lia. cbn [INR]. lra.
  - assert (Hd : 0 < IZR (n - 1)) by (apply IZR_lt; lia).
    assert (Hi0 : 0 <= INR i) by apply pos_INR.
    assert (Hi1 : INR i <= IZR (n - 1)).
    { rewrite INR_IZR_INZ. apply IZR_le. lia. }
    set (d := IZR (n - 1)) in *.
    assert (E : a + INR i * ((b - a) / d) = a + (b - a) * (INR i / d))
      by (field; lra).
    rewrite E.
    assert (H0 : 0 <= INR i / d)
      by (apply Rmult_le_pos; [lra | left; now apply Rinv_0_lt_compat]).
    assert (H1 : INR i / d <= 1).
    { apply (Rmult_le_reg_r d); [exact Hd |].
      replace (INR i / d * d) with (INR i) by (field; lra). lra. }
    nra.
Qed.

(** With one point asked and no range, the point drawn is 0: the wavelength
    is not among the points sampled. *)
Lemma plot_one_point_misses_wavelength :
  let self := Note__init__ 440 in
  plot self None (Some 1%Z) None None None [] 0%nat
  = mkOutcome
      [plt_axes 0%nat; np_linspace 0 (wavelength self) 1; self_call [0];
       ax_plot 0%nat [0] (Note__call__ self (Array [0])) []]
      1%nat (inr 0%nat)
  /\ ~ In (wavelength self) [0].
Proof.
  intros self. split.
  - apply (plot_sampled self (Some 1%Z) None None None [] 0%nat None
             0 (wavelength self) [0]);
      [reflexivity | apply linspace_single | reflexivity].
  - intros [H | []]. unfold self in H.
    cbn [wavelength Note__init__] in H. unfold speed_of_sound in H. lra.
Qed.

(** C7, amended: with [x_range] absent and at least two points asked (100
    when [n_points] is omitted), [plot] asks the generator for [n_points]
    points from 0 to the wavelength and hands exactly those points, with
    the value of the waveform, to the drawing call.  The points are evenly
    spaced, start at 0, end at the wavelength and lie between the two.  The
    value of the waveform is one float for all the points, which the
    drawing call refuses. *)
Theorem plot_one_wavelength (self : Note) (n_points : option Z)
    (x_label y_label : option string) (ax : option Axes) (kwargs : Kwargs)
    (k : nat) :
  let n := match n_points with Some n => n | None => 100%Z end in
  let w := wavelength self in
  (2 <= n)%Z ->
  exists xx : list R,
    np.linspace 0 w n = Some xx
    /\ plot self None n_points x_label y_label ax kwargs k
       = mkOutcome
           (axes_calls ax k
            ++ [np_linspace 0 w n; self_call xx;
                ax_plot (surface ax k) xx (Note__call__ self (Array xx))
                        kwargs])
           (match ax with Some _ => k | None => S k end)
           (inl ValueError)
    /\ length xx = Z.to_nat n
    /\ nth 0 xx 0 = 0
    /\ nth (Z.to_nat n - 1) xx 0 = w
    /\ (forall i : nat,
          (i < Z.to_nat n)%nat -> nth i xx 0 = INR i * (w / IZR (n - 1)))
    /\ (0 <= w -> forall x : R, In x xx -> 0 <= x <= w)
    /\ (forall x : R,
          In x xx ->
          Note__call__ self (Scalar x) = Note__call__ self (Array xx)).
Proof.
  intros n w Hn.
  destruct (np.linspace 0 w n) as [xx |] eqn:E;
    [| rewrite linspace_some in E by lia; discriminate E].
  pose proof (linspace_length _ _ _ _ E) as Hlen.
  exists xx. repeat apply conj.
  - reflexivity.
  - apply (plot_shape_refused self n_points x_label y_label ax kwargs k
             None 0 w xx); [reflexivity | exact E | lia].
  - exact Hlen.
  - apply (linspace_first _ _ _ _ E). lia.
  - exact (linspace_last _ _ _ _ E Hn).
  - intros i Hi. rewrite (linspace_nth _ _ _ _ i E Hi).
    unfold Rdiv. ring.
  - intros Hw x Hx. exact (linspace_inside _ _ _ _ x E Hw Hx).
  - intros x _. reflexivity.
Qed.

Lemma plot_one_wavelength_witness :
  let self := Note__init__ 440 in
  let w := wavelength self in
  (2 <= 100)%Z
  /\ exists xx : list R,
       np.linspace 0 w 100 = Some xx
       /\ plot self None None None None None [] 0%nat
          = mkOutcome
              ([plt_axes 0%nat]
               ++ [np_linspace 0 w 100; self_call xx;
                   ax_plot 0%nat xx (Note__call__ self (Array xx)) []])
              1%nat (inl ValueError)
       /\ length xx = 100%nat
       /\ nth 0 xx 0 = 0
       /\ nth 99 xx 0 = w
       /\ (forall i : nat,
             (i < 100)%nat -> nth i xx 0 = INR i * (w / 99))
       /\ (forall x : R, In x xx -> 0 <= x <= w).
Proof.
  intros self w. split; [lia |].
  destruct (plot_one_wavelength self None None None None [] 0%nat)
    as (xx & H1 & H2 & H3 & H4 & H5 & H6 & H7 & _); [lia |].
  exists xx. repeat apply conj; try assumption.
  apply H7. unfold w, self. cbn [wavelength Note__init__].
  unfold speed_of_sound. lra.
Defined.



(** ** More on powers of two and logarithms *)

Lemma pow_2_add (x y : R) : pow 2 (x + y) = pow 2 x * pow 2 y.
Proof. unfold pow. apply Rpower_plus. Qed.

Lemma pow_2_lt (x y : R) : x < y -> pow 2 x < pow 2 y.
Proof. intros H. unfold pow. apply Rpower_lt; lra. Qed.

Lemma pow_2_le (x y : R) : x <= y -> pow 2 x <= pow 2 y.
Proof.
  intros [H | ->]; [left; now apply pow_2_lt | right; reflexivity].
Qed.

Lemma pow_2_log2 (x : R) : 0 < x -> pow 2 (np.log2 x) = x.
Proof.
  intros H. unfold pow, Rpower, np.log2.
  replace (ln x / ln 2 * ln 2) with (ln x)
    by (field; pose proof ln2_pos; lra).
  now apply exp_ln.
Qed.

Lemma log2_pow_2 (x : R) : np.log2 (pow 2 x) = x.
Proof.
  unfold pow, Rpower, np.log2. rewrite ln_exp.
  field. pose proof ln2_pos. lra.
Qed.

Lemma log2_mult (x y : R) :
  0 < x -> 0 < y -> np.log2 (x * y) = np.log2 x + np.log2 y.
Proof.
  intros Hx Hy. unfold np.log2. rewrite ln_mult by assumption.
  field. pose proof ln2_pos. lra.
Qed.

Lemma log2_lt (x y : R) : 0 < x -> x < y -> np.log2 x < np.log2 y.
Proof.
  intros Hx Hxy. unfold np.log2, Rdiv.
  apply Rmult_lt_compat_r;
    [apply Rinv_0_lt_compat, ln2_pos | now apply ln_increasing].
Qed.

Lemma log2_nonneg (x : R) : 1 <= x -> 0 <= np.log2 x.
Proof.
  intros [H | <-]; [| rewrite log2_1; lra].
  left. rewrite <- log2_1. apply log2_lt; lra.
Qed.

Lemma log2_negative (x : R) : 0 < x -> x < 1 -> np.log2 x < 0.
Proof.
  intros H0 H1. rewrite <- log2_1. now apply log2_lt.
Qed.

(** ** Transposition as an action of the integers *)

Lemma float_le_true (x y : R) : x <= y -> float_le x y = true.
Proof. apply float_le_spec. Qed.

Lemma float_le_false (x y : R) : y < x -> float_le x y = false.
Proof.
  intros H. destruct (float_le x y) eqn:E; [| reflexivity].
  apply float_le_spec in E. lra.
Qed.

(** In range, the call returns the note of exact arithmetic. *)
Lemma Note_half_step_ok (self : Note) (n : Z) :
  half_step_returns self n -> Note_half_step self n = inr (half_step self n).
Proof.
  intros [[Hlo Hhi] Hmag]. unfold Note_half_step, float_pow2, n_tets in *.
  apply IZR_lt in Hlo, Hhi.
  rewrite float_le_false by lra. rewrite float_le_false by lra.
  unfold float_mul. rewrite float_le_false by exact Hmag.
  unfold Note_new, float_eq.
  destruct (Req_dec_T (frequency self * pow 2 (IZR n / 12)) 0) as [E | _];
    [| reflexivity].
  exfalso. rewrite E, Rabs_R0 in Hmag.
  pose proof (pow_2_pos (-1075)). lra.
Qed.


(** Too many steps down: the power is 0.0, so is the frequency, and the
    constructor divides by it. *)
Lemma Note_half_step_underflow (self : Note) (n : Z) :
  (n <= -12900)%Z -> Note_half_step self n = inl ZeroDivisionError.
Proof.
  intros H. unfold Note_half_step, float_pow2, n_tets.
  apply IZR_le in H. rewrite float_le_false by lra.
  rewrite float_le_true by lra. unfold float_mul.
  rewrite Rmult_0_r, Rabs_R0.
  rewrite float_le_true by (left; apply pow_2_pos).
  unfold Note_new, float_eq.
  destruct (Req_dec_T 0 0); [reflexivity | contradiction].
Qed.

(** An audible note stays in range over a thousand octaves each way. *)
Lemma half_step_returns_above (self : Note) (n : Z) :
  1 <= frequency self -> (-12000 <= n < 12288)%Z ->
  half_step_returns self n.
Proof.
  intros Hf [Hlo Hhi]. split; [lia |]. unfold n_tets.
  assert (H1 : pow 2 (-1075) < pow 2 (IZR n / 12)).
  { apply pow_2_lt. apply IZR_le in Hlo. lra. }
  pose proof (pow_2_pos (-1075)) as H0.
  rewrite Rabs_pos_eq by nra. nra.
Qed.




Lemma half_step_0_frequency (s : Note) : frequency (half_step s 0) = frequency s.
Proof.
  rewrite half_step_frequency_eq. replace (0 / 12) with 0 by field.
  rewrite pow_2_0. ring.
Qed.







(** ** Octaves and base frequencies *)

Lemma pow_2_4 : pow 2 4 = 16.
Proof.
  unfold pow. replace 4 with (INR 4) by (simpl; lra).
  rewrite Rpower_pow by lra. simpl. ring.
Qed.

Lemma pow_2_m4 : pow 2 (- (4)) = / 16.
Proof.
  unfold pow. rewrite Rpower_Ropp. fold (pow 2 4). now rewrite pow_2_4.
Qed.

Lemma pow_2_int_ratio (k : Z) :
  ((0 < k)%Z -> 1 < pow 2 (IZR k))
  /\ ((k < 0)%Z -> pow 2 (IZR k) < 1).
Proof.
  split; intros H; rewrite <- pow_2_0; apply pow_2_lt;
    apply IZR_lt in H; lra.
Qed.

(** At and above the standard pitch the octave counts whole doublings. *)
Lemma octave_above (f : R) :
  440 <= f ->
  octave (Note__init__ f) = 4 + np.floor (np.log2 (f / 440)).
Proof.
  intros Hf. rewrite octave_init.
  assert (Hl : 0 <= np.log2 (f / 440)).
  { apply log2_nonneg. apply (Rmult_le_reg_r 440); [lra |].
    replace (f / 440 * 440) with f by field. lra. }
  rewrite (Rabs_pos_eq _ Hl).
  destruct Hf as [Hf | <-].
  - rewrite sign_pos by lra. ring.
  - replace (440 - 440) with 0 by ring. rewrite sign_0.
    replace (440 / 440) with 1 by field.
    rewrite log2_1, (floor_IZR 0). ring.
Qed.

(** Below it, the octave counts whole halvings. *)
Lemma octave_below (f : R) :
  0 < f -> f < 440 ->
  octave (Note__init__ f) = 4 - np.floor (- np.log2 (f / 440)).
Proof.
  intros H0 Hf. rewrite octave_init, sign_neg by lra.
  assert (Hl : np.log2 (f / 440) < 0).
  { apply log2_negative.
    - apply Rdiv_lt_0_compat; lra.
    - apply (Rmult_lt_reg_r 440); [lra |].
      replace (f / 440 * 440) with f by field. lra. }
  rewrite Rabs_left by exact Hl. ring.
Qed.

Lemma frequency_as_power (f : R) :
  0 < f -> f = 440 * pow 2 (np.log2 (f / 440)).
Proof.
  intros Hf. rewrite pow_2_log2 by (apply Rdiv_lt_0_compat; lra). field.
Qed.

Lemma base_frequency_init (f : R) :
  base_frequency (Note__init__ f) = f * pow 2 (- octave (Note__init__ f)).
Proof. reflexivity. Qed.

Lemma base_frequency_as_power (f : R) :
  0 < f ->
  base_frequency (Note__init__ f)
  = 440 / 16 * pow 2 (np.log2 (f / 440) + (4 - octave (Note__init__ f))).
Proof.
  intros Hf. rewrite base_frequency_init.
  set (o := octave (Note__init__ f)).
  rewrite (frequency_as_power f Hf) at 1.
  set (l := np.log2 (f / 440)).
  replace (l + (4 - o)) with (l + (- o + 4)) by ring.
  rewrite !pow_2_add, pow_2_4. field.
Qed.

(** In exact arithmetic, the note [12 * k] half steps away from 440 Hz is
    at [440 * 2^k] Hz, in octave [4 + k], with base frequency 27.5 Hz. *)
Lemma octaves_of_standard_pitch_exact (k : Z) :
  let a := half_step (Note__init__ 440) (12 * k) in
  frequency a = 440 * pow 2 (IZR k)
  /\ octave a = 4 + IZR k
  /\ base_frequency a = 440 / 16.
Proof.
  intros a.
  assert (Ha : a = Note__init__ (440 * pow 2 (IZR k))).
  { unfold a, half_step. rewrite frequency_init. f_equal. f_equal. f_equal.
    unfold n_tets. rewrite mult_IZR. field. }
  set (g := 440 * pow 2 (IZR k)) in *.
  assert (Hg : 0 < g)
    by (apply Rmult_lt_0_compat; [lra | apply pow_2_pos]).
  assert (Hl : np.log2 (g / 440) = IZR k).
  { unfold g. replace (440 * pow 2 (IZR k) / 440) with (pow 2 (IZR k))
      by field.
    apply log2_pow_2. }
  assert (Hoa : octave (Note__init__ g) = 4 + IZR k).
  { rewrite octave_init, Hl.
    destruct (pow_2_int_ratio k) as [Hpos Hneg].
    destruct (Z.lt_trichotomy k 0) as [Hk | [Hk | Hk]].
    - specialize (Hneg Hk). rewrite sign_neg by (unfold g; lra).
      rewrite Rabs_left by (apply IZR_lt in Hk; lra).
      rewrite <- opp_IZR, floor_IZR, opp_IZR. ring.
    - subst k. unfold g. rewrite pow_2_0.
      replace (440 * 1 - 440) with 0 by ring.
      rewrite sign_0. ring.
    - specialize (Hpos Hk). rewrite sign_pos by (unfold g; lra).
      rewrite Rabs_pos_eq by (apply IZR_le; lia).
      rewrite floor_IZR. ring. }
  rewrite Ha. repeat split; [exact Hoa |].
  rewrite (base_frequency_as_power g Hg), Hoa, Hl.
  replace (IZR k + (4 - (4 + IZR k))) with 0 by ring.
  rewrite pow_2_0. field.
Qed.

(** X4: for [k] between -1000 and 1000, [half_step(12 * k)] from 440 Hz
    returns, in exact arithmetic, the note at [440 * 2^k] Hz, in octave
    [4 + k], with base frequency [440 / 16 = 27.5] Hz. *)
Theorem octaves_of_standard_pitch (k : Z) :
  (-1000 <= k <= 1000)%Z ->
  exists a : Note,
    Note_half_step (Note__init__ 440) (12 * k) = inr a
    /\ frequency a = 440 * pow 2 (IZR k)
    /\ octave a = 4 + IZR k
    /\ base_frequency a = 440 / 16.
Proof.
  intros Hk. exists (half_step (Note__init__ 440) (12 * k)).
  split; [| exact (octaves_of_standard_pitch_exact k)].
  apply Note_half_step_ok, half_step_returns_above;
    [rewrite frequency_init; lra | lia].
Qed.

Lemma octaves_of_standard_pitch_witness :
  (-1000 <= 3 <= 1000)%Z
  /\ exists a : Note,
       Note_half_step (Note__init__ 440) (12 * 3) = inr a
       /\ frequency a = 440 * pow 2 3
       /\ octave a = 4 + 3
       /\ base_frequency a = 440 / 16.
Proof.
  split; [lia |].
  apply (octaves_of_standard_pitch 3). lia.
Defined.

(** X5: the octave of a note of positive frequency is a whole number, at
    least 4 from the standard pitch up and at most 4 from it down. *)
Theorem octave_whole (f : R) :
  0 < f ->
  exists z : Z,
    octave (Note__init__ f) = IZR z
    /\ (440 <= f -> (4 <= z)%Z)
    /\ (f <= 440 -> (z <= 4)%Z).
Proof.
  intros H0.
  destruct (Rlt_dec f 440) as [Hlt | Hge].
  - exists (4 - Zfloor (- np.log2 (f / 440)))%Z.
    rewrite (octave_below f H0 Hlt). unfold np.floor.
    split; [now rewrite minus_IZR | split; [lra |]].
    intros _.
    assert (0 <= Zfloor (- np.log2 (f / 440)))%Z; [| lia].
    apply (Zfloor_lub 0). 
    assert (np.log2 (f / 440) < 0); [| lra].
    apply log2_negative.
    + apply Rdiv_lt_0_compat; lra.
    + apply (Rmult_lt_reg_r 440); [lra |].
      replace (f / 440 * 440) with f by field. lra.
  - exists (4 + Zfloor (np.log2 (f / 440)))%Z.
    rewrite (octave_above f) by lra. unfold np.floor.
    split; [now rewrite plus_IZR |].
    assert (Hz : (0 <= Zfloor (np.log2 (f / 440)))%Z).
    { apply (Zfloor_lub 0). apply log2_nonneg.
      apply (Rmult_le_reg_r 440); [lra |].
      replace (f / 440 * 440) with f by field. lra. }
    split; [lia |].
    intros Hle. assert (f = 440) as -> by lra.
    replace (440 / 440) with 1 by field.
    rewrite log2_1, (ZfloorZ 0). lia.
Qed.

Lemma octave_whole_witness :
  0 < 1000
  /\ exists z : Z,
       octave (Note__init__ 1000) = IZR z /\ (4 <= z)%Z.
Proof.
  split; [lra |].
  destruct (octave_whole 1000) as (z & Hz & Hup & _); [lra |].
  exists z. split; [exact Hz | apply Hup; lra].
Defined.

Lemma ratio_ge_1 (f : R) : 440 <= f -> 1 <= f / 440.
Proof.
  intros H. apply (Rmult_le_reg_r 440); [lra |].
  replace (f / 440 * 440) with f by field. lra.
Qed.

Lemma ratio_lt_1 (f : R) : f < 440 -> f / 440 < 1.
Proof.
  intros H. apply (Rmult_lt_reg_r 440); [lra |].
  replace (f / 440 * 440) with f by field. lra.
Qed.

(** X6: the base frequency of a note of positive frequency lies in a fixed
    band: from 27.5 Hz (included) to 55 Hz for a note at or above the
    standard pitch, from 13.75 Hz to 27.5 Hz (included) for a note below. *)
Theorem base_frequency_range (f : R) :
  0 < f ->
  (440 <= f ->
     440 / 16 <= base_frequency (Note__init__ f) < 440 / 8)
  /\ (f < 440 ->
        440 / 32 < base_frequency (Note__init__ f) <= 440 / 16).
Proof.
  intros H0. rewrite (base_frequency_as_power f H0).
  set (l := np.log2 (f / 440)).
  split; intros Hf.
  - rewrite (octave_above f Hf). fold l. unfold np.floor.
    destruct (Zfloor_bound l) as [Hlo Hhi].
    set (z := IZR (Zfloor l)) in *.
    assert (H1 : pow 2 0 <= pow 2 (l + (4 - (4 + z))))
      by (apply pow_2_le; lra).
    assert (H2 : pow 2 (l + (4 - (4 + z))) < pow 2 1)
      by (apply pow_2_lt; lra).
    rewrite pow_2_0 in H1. rewrite pow_2_1 in H2. lra.
  - rewrite (octave_below f H0 Hf). fold l. unfold np.floor.
    destruct (Zfloor_bound (- l)) as [Hlo Hhi].
    set (z := IZR (Zfloor (- l))) in *.
    assert (H1 : pow 2 (-1) < pow 2 (l + (4 - (4 - z))))
      by (apply pow_2_lt; lra).
    assert (H2 : pow 2 (l + (4 - (4 - z))) <= pow 2 0)
      by (apply pow_2_le; lra).
    rewrite pow_2_m1 in H1. rewrite pow_2_0 in H2. lra.
Qed.

Lemma base_frequency_range_witness :
  0 < 300
  /\ 440 / 32 < base_frequency (Note__init__ 300) <= 440 / 16.
Proof.
  split; [lra |].
  apply (proj2 (base_frequency_range 300 ltac:(lra))). lra.
Defined.

(** X7: every note strictly between 220 Hz and 880 Hz is in octave 4: the
    notes of the octave below the standard pitch are counted with those of
    the octave above it. *)
Theorem octave_4_band (f : R) :
  220 < f -> f < 880 -> octave (Note__init__ f) = 4.
Proof.
  intros Hlo Hhi.
  assert (Hr : 0 < f / 440) by (apply Rdiv_lt_0_compat; lra).
  destruct (Rlt_dec f 440) as [Hlt | Hge].
  - rewrite octave_below by lra.
    assert (Hl : -1 < np.log2 (f / 440)).
    { rewrite <- log2_half. apply log2_lt; [lra |].
      apply (Rmult_lt_reg_r 440); [lra |].
      replace (f / 440 * 440) with f by field. lra. }
    assert (Hl' : np.log2 (f / 440) < 0)
      by (apply log2_negative; [exact Hr | now apply ratio_lt_1]).
    unfold np.floor. rewrite (Zfloor_eq 0) by lra. ring.
  - rewrite octave_above by lra.
    assert (Hl : 0 <= np.log2 (f / 440))
      by (apply log2_nonneg, ratio_ge_1; lra).
    assert (Hl' : np.log2 (f / 440) < 1).
    { rewrite <- log2_2. apply log2_lt; [exact Hr |].
      apply (Rmult_lt_reg_r 440); [lra |].
      replace (f / 440 * 440) with f by field. lra. }
    unfold np.floor. rewrite (Zfloor_eq 0) by lra. ring.
Qed.

Lemma octave_4_band_witness :
  220 < 300 /\ 300 < 880 /\ octave (Note__init__ 300) = 4
  /\ octave (half_step (Note__init__ 300) 12) = 4.
Proof.
  split; [lra | split; [lra | split]].
  - apply (octave_4_band 300); lra.
  - assert (E : half_step (Note__init__ 300) 12 = Note__init__ 600).
    { unfold half_step. rewrite frequency_init. f_equal.
      replace (IZR 12 / IZR n_tets) with 1 by (unfold n_tets; field).
      rewrite pow_2_1. ring. }
    rewrite E. apply (octave_4_band 600); lra.
Defined.

(** ** More on comparisons, wavelengths and the waveform *)

Lemma float_lt_true (x y : R) : x < y -> float_lt x y = true.
Proof. apply float_lt_spec. Qed.

Lemma float_lt_false (x y : R) : ~ x < y -> float_lt x y = false.
Proof.
  intros H. destruct (float_lt x y) eqn:E; [| reflexivity].
  apply float_lt_spec in E. contradiction.
Qed.

(** X9: of two notes made by the constructor at positive frequencies, the
    higher one has the shorter wavelength, and wavelengths are positive. *)
Theorem wavelength_antitone (a b : Note) :
  constructed a -> constructed b ->
  Note_lt a b = Some true ->
  0 < wavelength b /\ wavelength b < wavelength a.
Proof.
  intros [Ha Ea] [Hb Eb] Hlt.
  rewrite Note_lt_eq in Hlt. injection Hlt as Hlt.
  apply float_lt_spec in Hlt.
  rewrite Ea, Eb. cbn [wavelength Note__init__]. unfold speed_of_sound.
  set (x := frequency a) in *. set (y := frequency b) in *.
  assert (Hy : 0 < / y) by now apply Rinv_0_lt_compat.
  assert (Hxy : / y < / x) by (apply Rinv_lt_contravar; nra).
  unfold Rdiv. split; nra.
Qed.

Lemma wavelength_antitone_witness :
  constructed (Note__init__ 220) /\ constructed (Note__init__ 440)
  /\ Note_lt (Note__init__ 220) (Note__init__ 440) = Some true
  /\ 0 < wavelength (Note__init__ 440)
  /\ wavelength (Note__init__ 440) < wavelength (Note__init__ 220).
Proof.
  assert (Ha : constructed (Note__init__ 220))
    by (apply constructed_init; lra).
  assert (Hb : constructed (Note__init__ 440))
    by (apply constructed_init; lra).
  assert (Hlt : Note_lt (Note__init__ 220) (Note__init__ 440) = Some true).
  { rewrite Note_lt_eq, !frequency_init. f_equal.
    apply float_lt_true. lra. }
  split; [exact Ha | split; [exact Hb | split; [exact Hlt |]]].
  exact (wavelength_antitone _ _ Ha Hb Hlt).
Defined.

(** X10: for notes made by the constructor, [a == b] holds exactly when the
    two notes agree on every attribute. *)
Theorem eq_is_identity (a b : Note) :
  constructed a -> constructed b ->
  (Note_eq a b = Some true <-> a = b).
Proof.
  intros [_ Ea] [_ Eb]. rewrite Note_eq_eq. split.
  - intros H. injection H as H. apply float_eq_spec in H.
    rewrite Ea, Eb, H. reflexivity.
  - intros ->. f_equal. now apply float_eq_spec.
Qed.

Lemma eq_is_identity_witness :
  constructed (Note__init__ 440)
  /\ (Note_eq (Note__init__ 440) (half_step (Note__init__ 440) 0) = Some true
      <-> Note__init__ 440 = half_step (Note__init__ 440) 0).
Proof.
  assert (Ha : constructed (Note__init__ 440))
    by (apply constructed_init; lra).
  split; [exact Ha |].
  apply (eq_is_identity _ _ Ha). now apply constructed_half_step.
Defined.

(** X11: [a > b] is [b < a], [a == b] is [b == a], and [a <= b], as the
    class ends up defining it, answers the opposite of [a < b]: it is true
    exactly when [a > b] or [a == b] is. *)
Theorem comparisons_related (a b : Note) :
  Note_gt a b = Note_lt b a
  /\ Note_eq a b = Note_eq b a
  /\ Note_le a b = option_map negb (Note_lt a b)
  /\ exists g e : bool,
       Note_gt a b = Some g /\ Note_eq a b = Some e
       /\ Note_le a b = Some (g || e).
Proof.
  rewrite Note_gt_eq, !Note_lt_eq, !Note_eq_eq, Note_le_eq.
  set (x := frequency a). set (y := frequency b).
  repeat split.
  - f_equal. unfold float_gt, float_lt.
    destruct (Rgt_dec x y), (Rlt_dec y x); try reflexivity; exfalso; lra.
  - f_equal. unfold float_eq.
    destruct (Req_dec_T x y), (Req_dec_T y x);
      try reflexivity; exfalso; lra.
  - cbn [option_map]. f_equal. unfold float_ge, float_lt.
    destruct (Rge_dec x y), (Rlt_dec x y); try reflexivity; exfalso; lra.
  - exists (float_gt x y), (float_eq x y). repeat split.
    f_equal. unfold float_ge, float_gt, float_eq.
    destruct (Rge_dec x y), (Rgt_dec x y), (Req_dec_T x y);
      try reflexivity; exfalso; lra.
Qed.

(** X12: [<] on notes is a strict order, and [==] is compatible with it: no
    note is below itself, [a < b] and [b < c] give [a < c], and equal notes
    compare alike with any third note. *)
Theorem lt_strict_order (a b c : Note) :
  Note_lt a a = Some false
  /\ (Note_lt a b = Some true -> Note_lt b a = Some false)
  /\ (Note_lt a b = Some true -> Note_lt b c = Some true ->
      Note_lt a c = Some true)
  /\ (Note_eq a b = Some true -> Note_lt a c = Note_lt b c).
Proof.
  rewrite !Note_lt_eq, Note_eq_eq.
  set (x := frequency a). set (y := frequency b). set (z := frequency c).
  repeat split.
  - f_equal. apply float_lt_false. lra.
  - intros H. injection H as H. apply float_lt_spec in H.
    f_equal. apply float_lt_false. lra.
  - intros H1 H2. injection H1 as H1. injection H2 as H2.
    apply float_lt_spec in H1, H2. f_equal. apply float_lt_true. lra.
  - intros H. injection H as H. apply float_eq_spec in H.
    now rewrite H.
Qed.

Lemma lt_strict_order_witness :
  let a := Note__init__ 220 in
  let b := Note__init__ 440 in
  let c := Note__init__ 880 in
  Note_lt a b = Some true /\ Note_lt b c = Some true
  /\ Note_lt a c = Some true /\ Note_lt b a = Some false.
Proof.
  intros a b c.
  assert (Hab : Note_lt a b = Some true).
  { unfold a, b. rewrite Note_lt_eq, !frequency_init. f_equal.
    apply float_lt_true. lra. }
  assert (Hbc : Note_lt b c = Some true).
  { unfold b, c. rewrite Note_lt_eq, !frequency_init. f_equal.
    apply float_lt_true. lra. }
  destruct (lt_strict_order a b c) as (_ & Hasym & Htrans & _).
  repeat split; auto.
Defined.

(** X13: the waveform is normalised: whatever the note and the argument,
    the sample lies between -1 and 1. *)
Theorem call_amplitude (self : Note) (t : Arg) :
  -1 <= Note__call__ self t <= 1.
Proof.
  unfold Note__call__, np.sin. apply SIN_bound.
Qed.

Lemma sin_shift_nat (x : R) (k : nat) :
  Rtrigo_def.sin (2 * PI * (x + INR k)) = Rtrigo_def.sin (2 * PI * x).
Proof.
  replace (2 * PI * (x + INR k)) with (2 * PI * x + 2 * INR k * PI) by ring.
  apply sin_period.
Qed.

(** X14: two notes whose frequencies differ by a whole number have the same
    sample, at any arguments. *)
Theorem call_whole_shift (a b : Note) (k : Z) (t t' : Arg) :
  frequency b = frequency a + IZR k ->
  Note__call__ b t' = Note__call__ a t.
Proof.
  intros H. unfold Note__call__, np.sin, np.pi. rewrite H.
  destruct (Z_le_gt_dec 0 k) as [Hk | Hk].
  - rewrite <- (Z2Nat.id k Hk), <- INR_IZR_INZ. apply sin_shift_nat.
  - rewrite <- (sin_shift_nat (frequency a + IZR k) (Z.to_nat (- k))).
    f_equal. f_equal.
    rewrite INR_IZR_INZ, Z2Nat.id by lia. rewrite opp_IZR. ring.
Qed.

Lemma call_whole_shift_witness :
  frequency (Note__init__ (441 / 2)) = frequency (Note__init__ (1 / 2)) + 220
  /\ Note__call__ (Note__init__ (441 / 2)) (Scalar 0)
     = Note__call__ (Note__init__ (1 / 2)) (Scalar 1).
Proof.
  assert (H : frequency (Note__init__ (441 / 2))
              = frequency (Note__init__ (1 / 2)) + IZR 220)
    by (rewrite !frequency_init; field).
  split; [exact H |].
  exact (call_whole_shift _ _ 220 (Scalar 1) (Scalar 0) H).
Defined.

(** ** More on plotting *)

(** X15: with a range [(x0, x1)], [x0 < x1], and at least two points,
    [plot] generates [n_points] points that start at [x0], end at [x1] and
    lie between the two, and hands them to the drawing call with the single
    float [self(xx)]; the drawing call refuses them, so [plot] raises
    ValueError and sets no label. *)
Theorem plot_given_range (self : Note) (x0 x1 : R) (n_points : option Z)
    (x_label y_label : option string) (ax : option Axes) (kwargs : Kwargs)
    (k : nat) :
  let n := points_asked n_points in
  x0 < x1 -> (2 <= n)%Z ->
  exists xx : list R,
    plot self (Some (x0, x1)) n_points x_label y_label ax kwargs k
    = mkOutcome
        (axes_calls ax k
         ++ [np_linspace x0 x1 n; self_call xx;
             ax_plot (surface ax k) xx (Note__call__ self (Array xx)) kwargs])
        (match ax with Some _ => k | None => S k end)
        (inl ValueError)
    /\ length xx = Z.to_nat n
    /\ nth 0 xx 0 = x0
    /\ nth (Z.to_nat n - 1) xx 0 = x1
    /\ forall x : R, In x xx -> x0 <= x <= x1.
Proof.
  intros n Hlt Hn.
  destruct (np.linspace x0 x1 n) as [xx |] eqn:E;
    [| rewrite linspace_some in E by lia; discriminate E].
  pose proof (linspace_length _ _ _ _ E) as Hlen.
  exists xx. repeat apply conj.
  - apply (plot_shape_refused self n_points x_label y_label ax kwargs k
             (Some (x0, x1)) x0 x1 xx);
      [split; [reflexivity | exact Hlt] | exact E | lia].
  - exact Hlen.
  - apply (linspace_first _ _ _ _ E). lia.
  - exact (linspace_last _ _ _ _ E Hn).
  - intros x Hx. apply (linspace_inside _ _ _ _ x E); [lra | exact Hx].
Qed.

Lemma plot_given_range_witness :
  1 < 3 /\ (2 <= 5)%Z
  /\ exists xx : list R,
       plot (Note__init__ 440) (Some (1, 3)) (Some 5%Z) None None
            (Some 7%nat) [] 0%nat
       = mkOutcome
           ([] ++ [np_linspace 1 3 5; self_call xx;
                   ax_plot 7%nat xx
                     (Note__call__ (Note__init__ 440) (Array xx)) []])
           0%nat (inl ValueError)
       /\ length xx = 5%nat
       /\ nth 0 xx 0 = 1
       /\ nth 4 xx 0 = 3
       /\ forall x : R, In x xx -> 1 <= x <= 3.
Proof.
  split; [lra | split; [lia |]].
  apply (plot_given_range (Note__init__ 440) 1 3 (Some 5%Z) None None
           (Some 7%nat) [] 0%nat); [lra | cbn; lia].
Defined.

(** X16: a negative [n_points] is refused by the generator only after the
    range has passed and the surface has been chosen: [plot] raises
    ValueError having created a surface if none was given, and having drawn
    nothing. *)
Theorem plot_negative_points (self : Note) (x_range : option (R * R))
    (n_points : option Z) (x_label y_label : option string)
    (ax : option Axes) (kwargs : Kwargs) (k : nat) :
  let x0 := range_start x_range in
  let x1 := range_stop self x_range in
  let n := points_asked n_points in
  (x_range = None \/ x0 < x1) -> (n < 0)%Z ->
  plot self x_range n_points x_label y_label ax kwargs k
  = mkOutcome (axes_calls ax k ++ [np_linspace x0 x1 n])
              (match ax with Some _ => k | None => S k end)
              (inl ValueError).
Proof.
  intros x0 x1 n Hr Hn.
  destruct (plot_cases self x_range n_points x_label y_label ax kwargs k)
    as [(Hnone & Hge & _)
       | [(_ & _ & _ & H)
         | [(xx & _ & Hpos & _) | (xx & _ & Hpos & _)]]].
  - exfalso. fold x0 x1 in Hge. destruct Hr as [Hr | Hr]; [contradiction | lra].
  - exact H.
  - exfalso. fold n in Hpos. lia.
  - exfalso. fold n in Hpos. lia.
Qed.

Lemma plot_negative_points_witness :
  (@None (R * R) = None \/ 0 < wavelength (Note__init__ 440)) /\ (-1 < 0)%Z
  /\ plot (Note__init__ 440) None (Some (-1)%Z) None None None [] 0%nat
     = mkOutcome
         ([plt_axes 0%nat]
          ++ [np_linspace 0 (wavelength (Note__init__ 440)) (-1)])
         1%nat (inl ValueError).
Proof.
  split; [left; reflexivity | split; [lia |]].
  apply (plot_negative_points (Note__init__ 440) None (Some (-1)%Z) None None
           None [] 0%nat); [left; reflexivity | cbn; lia].
Defined.

(** X17: [plot] calls [ax.plot] at most once, always on the surface of the
    run, with the generated points, the value of the waveform and the
    keyword arguments as they were given.  When [plot] returns, the call
    was made with a single point; when the range is refused, nothing at all
    was called; when ValueError is raised, either the generator refused
    [n_points] and nothing was drawn, or the drawing call was made and
    refused points that are not one in number. *)
Theorem plot_draws_once (self : Note) (x_range : option (R * R))
    (n_points : option Z) (x_label y_label : option string)
    (ax : option Axes) (kwargs : Kwargs) (k : nat) :
  let x0 := range_start x_range in
  let x1 := range_stop self x_range in
  let n := points_asked n_points in
  let o := plot self x_range n_points x_label y_label ax kwargs k in
  match result o with
  | inr a =>
      exists x : R,
        np.linspace x0 x1 n = Some [x]
        /\ filter is_ax_plot (calls o)
           = [ax_plot a [x] (Note__call__ self (Array [x])) kwargs]
  | inl AssertionError => calls o = []
  | inl ValueError =>
      (np.linspace x0 x1 n = None /\ filter is_ax_plot (calls o) = [])
      \/ (exists xx : list R,
            np.linspace x0 x1 n = Some xx /\ length xx <> 1%nat
            /\ filter is_ax_plot (calls o)
               = [ax_plot (surface ax k) xx (Note__call__ self (Array xx))
                          kwargs])
  | inl _ => False
  end.
Proof.
  intros x0 x1 n o.
  destruct (plot_cases self x_range n_points x_label y_label ax kwargs k)
    as [(_ & _ & H)
       | [(_ & _ & E & H)
         | [(xx & _ & _ & E & Hlen & H) | (xx & _ & _ & E & Hlen & H)]]];
    fold o in H; rewrite H; cbn [result calls].
  - reflexivity.
  - left. split; [exact E |]. unfold axes_calls. destruct ax; reflexivity.
  - right. exists xx. repeat split; try assumption.
    unfold axes_calls. destruct ax; reflexivity.
  - destruct xx as [| x [| x' xx]]; try discriminate Hlen.
    exists x. split; [exact E |].
    unfold axes_calls, label_calls.
    destruct ax, x_label, y_label; reflexivity.
Qed.

(** X18: a surface that is supplied is the one returned, and [plot] then
    creates none; without one, [plot] creates exactly one surface, unless
    the range is refused, and returns that one. *)
Theorem plot_surface (self : Note) (x_range : option (R * R))
    (n_points : option Z) (x_label y_label : option string)
    (ax : option Axes) (kwargs : Kwargs) (k : nat) :
  let o := plot self x_range n_points x_label y_label ax kwargs k in
  match ax with
  | Some a0 =>
      filter is_plt_axes (calls o) = []
      /\ fresh o = k
      /\ forall a : Axes, result o = inr a -> a = a0
  | None =>
      (o = mkOutcome [] k (inl AssertionError))
      \/ (filter is_plt_axes (calls o) = [plt_axes k]
          /\ fresh o = S k
          /\ forall a : Axes, result o = inr a -> a = k)
  end.
Proof.
  intros o.
  destruct (plot_cases self x_range n_points x_label y_label ax kwargs k)
    as [(_ & _ & H)
       | [(_ & _ & _ & H)
         | [(xx & _ & _ & _ & _ & H) | (xx & _ & _ & _ & _ & H)]]];
    fold o in H; rewrite H; clear H;
    unfold axes_calls, label_calls, surface;
    destruct ax as [a0 |]; cbn [result calls fresh].
  - repeat split. intros a E. discriminate E.
  - left. reflexivity.
  - repeat split. intros a E. discriminate E.
  - right. repeat split. intros a E. discriminate E.
  - repeat split. intros a E. discriminate E.
  - right. repeat split. intros a E. discriminate E.
  - destruct x_label, y_label; repeat split; intros a E; congruence.
  - right. destruct x_label, y_label; repeat split; intros a E; congruence.
Qed.

Lemma plot_surface_witness :
  let o := plot (Note__init__ 440) None None None None (Some 7%nat) [] 0%nat in
  filter is_plt_axes (calls o) = []
  /\ fresh o = 0%nat
  /\ forall a : Axes, result o = inr a -> a = 7%nat.
Proof.
  exact (plot_surface (Note__init__ 440) None None None None (Some 7%nat) []
           0%nat).
Defined.

(** X19: an axis label is set exactly when it is given and [plot] returns,
    and then on the surface returned: a label that is absent is never set,
    and a run that raises sets none. *)
Theorem plot_labels (self : Note) (x_range : option (R * R))
    (n_points : option Z) (x_label y_label : option string)
    (ax : option Axes) (kwargs : Kwargs) (k : nat) (a : Axes) (l : string) :
  let o := plot self x_range n_points x_label y_label ax kwargs k in
  (In (ax_set_xlabel a l) (calls o)
   <-> x_label = Some l /\ result o = inr a)
  /\ (In (ax_set_ylabel a l) (calls o)
      <-> y_label = Some l /\ result o = inr a).
Proof.
  intros o.
  destruct (plot_cases self x_range n_points x_label y_label ax kwargs k)
    as [(_ & _ & H)
       | [(_ & _ & _ & H)
         | [(xx & _ & _ & _ & _ & H) | (xx & _ & _ & _ & _ & H)]]];
    fold o in H; rewrite H; clear H;
    unfold axes_calls, label_calls, surface;
    destruct ax as [a0 |], x_label as [lx |], y_label as [ly |];
    cbn [result calls app In];
    (split; (split;
     [ intros HIn;
       repeat match goal with
              | H : _ \/ _ |- _ => destruct H as [H | H]
              | H : False |- _ => destruct H
              | H : _ = ax_set_xlabel _ _ |- _ =>
                  first [discriminate H | injection H as -> ->]
              | H : _ = ax_set_ylabel _ _ |- _ =>
                  first [discriminate H | injection H as -> ->]
              end;
       split; reflexivity
     | intros [Hl Hr];
       first [discriminate Hl | discriminate Hr
             | injection Hl as ->; injection Hr as ->; tauto] ])).
Qed.

(** X20: asking for a single point samples the start of the range only: the
    end of the range, the wavelength when no range is given, is not among
    the points drawn. *)
Theorem plot_single_point (self : Note) (x_range : option (R * R))
    (x_label y_label : option string) (ax : option Axes) (kwargs : Kwargs)
    (k : nat) :
  let x0 := range_start x_range in
  let x1 := range_stop self x_range in
  (x_range = None \/ x0 < x1) ->
  plot self x_range (Some 1%Z) x_label y_label ax kwargs k
  = mkOutcome
      (axes_calls ax k
       ++ [np_linspace x0 x1 1; self_call [x0];
           ax_plot (surface ax k) [x0] (Note__call__ self (Array [x0]))
                   kwargs]
       ++ label_calls (surface ax k) x_label y_label)
      (match ax with Some _ => k | None => S k end)
      (inr (surface ax k)).
Proof.
  intros x0 x1 Hr.
  assert (Hs : match x_range with
               | Some xr => xr = (x0, x1) /\ x0 < x1
               | None => (x0, x1) = (0, wavelength self)
               end).
  { subst x0 x1. destruct x_range as [[u v] |];
      cbn [range_start range_stop fst snd] in *.
    - destruct Hr as [Hr | Hr]; [discriminate Hr | auto].
    - reflexivity. }
  exact (plot_sampled self (Some 1%Z) x_label y_label ax kwargs k
           x_range x0 x1 [x0] Hs (linspace_single x0 x1) eq_refl).
Qed.

Lemma plot_single_point_witness :
  (@None (R * R) = None \/ 0 < wavelength (Note__init__ 440))
  /\ plot (Note__init__ 440) None (Some 1%Z) None None None [] 0%nat
     = mkOutcome
         ([plt_axes 0%nat]
          ++ [np_linspace 0 (wavelength (Note__init__ 440)) 1;
              self_call [0];
              ax_plot 0%nat [0]
                (Note__call__ (Note__init__ 440) (Array [0])) []]
          ++ [])
         1%nat (inr 0%nat).
Proof.
  split; [left; reflexivity |].
  apply (plot_single_point (Note__init__ 440) None None None None [] 0%nat).
  left. reflexivity.
Defined.


